(** * NeuronIP Python SDK: the gateway client and the key-provisioning script

    A shallow embedding of [sdk/python/neuronip/client.py] and of
    [scripts/create-test-api-key.py], with the properties the specification
    states about them.

    Python values are modelled as follows:
    - [str] as [string] (the slash, the header names and the generated keys
      are all ASCII, so bytes and code points coincide where it matters);
    - [int] as [Z];
    - [dict] as stdpp's [gmap] with string keys (Python compares dictionaries
      without regard to insertion order, and so does [gmap]);
    - an exception as the [inl] of a sum, threaded by a small monad.

    The [requests] library and the JSON codec are not code of this
    repository: what the client needs of them is the interface
    [requests.Library], and every theorem about the client holds for all its
    instances. Of the hash functions of the script, SHA-256 is written out
    and bcrypt is a parameter. *)

From Stdlib Require Import ZArith Ascii String.
From stdpp Require Import base option list strings gmap fin_maps pretty.

Local Open Scope Z_scope.

(* ===================================================================== *)
(** * Part I: definitions                                                 *)
(* ===================================================================== *)

(** ** Python string operations used by the sources *)

Module PyStr.

(** [s.rstrip(c)] for a one-character set: drop every trailing [c]. *)
Fixpoint rstrip (c : ascii) (s : string) : string :=
  match s with
  | EmptyString => EmptyString
  | String a s' =>
      match rstrip c s' with
      | EmptyString => if Ascii.eqb a c then EmptyString else String a EmptyString
      | r => String a r
      end
  end.

(** [c * k]: the string of [k] copies of one character. *)
Fixpoint replicate (k : nat) (c : ascii) : string :=
  match k with
  | O => EmptyString
  | S k' => String c (replicate k' c)
  end.

(** [s[:n]]: the slice of the first [n] characters (all of [s] when it is
    shorter, as Python slicing never raises). *)
Fixpoint take (n : nat) (s : string) : string :=
  match n, s with
  | S n', String a s' => String a (take n' s')
  | _, _ => EmptyString
  end.

(** The last character, if any. *)
Fixpoint last (s : string) : option ascii :=
  match s with
  | EmptyString => None
  | String a EmptyString => Some a
  | String _ s' => last s'
  end.

(** The first character, if any. *)
Definition first (s : string) : option ascii :=
  match s with
  | EmptyString => None
  | String a _ => Some a
  end.

(** [a.lower()] on ASCII letters. *)
Definition lower_ascii (a : ascii) : ascii :=
  let n := nat_of_ascii a in
  if (Nat.leb 65 n && Nat.leb n 90)%bool then ascii_of_nat (n + 32) else a.

Fixpoint lower (s : string) : string :=
  match s with
  | EmptyString => EmptyString
  | String a s' => String (lower_ascii a) (lower s')
  end.

(** [a.upper()] on ASCII letters. *)
Definition upper_ascii (a : ascii) : ascii :=
  let n := nat_of_ascii a in
  if (Nat.leb 97 n && Nat.leb n 122)%bool then ascii_of_nat (n - 32) else a.

Fixpoint upper (s : string) : string :=
  match s with
  | EmptyString => EmptyString
  | String a s' => String (upper_ascii a) (upper s')
  end.

(** Python truthiness of a [str]: only the empty string is falsy. *)
Definition truthy (s : string) : bool :=
  match s with
  | EmptyString => false
  | String _ _ => true
  end.

End PyStr.

Definition slash : ascii := "/"%char.

(** ** Python values that travel as JSON

    The payloads and query parameters the client builds, and the bodies it
    decodes, are made of these. Floats are left out: no operation of the
    client computes with one. *)

#[warning="-register-all"]
Inductive value : Type :=
  | VNone
  | VBool (b : bool)
  | VInt (z : Z)
  | VStr (s : string)
  | VList (l : list value)
  | VDict (d : gmap string value).

(** Python truthiness, as [if x:] tests it. *)
Definition truthy (v : value) : bool :=
  match v with
  | VNone => false
  | VBool b => b
  | VInt z => negb (z =? 0)
  | VStr s => PyStr.truthy s
  | VList l => negb (Nat.eqb (length l) 0)
  | VDict d => negb (Nat.eqb (size d) 0)
  end.

(** An argument annotated [Optional[str]] or [Optional[Dict[str, Any]]], as
    the Python value it is at run time. *)
Definition of_optional_str (o : option string) : value :=
  match o with
  | None => VNone
  | Some s => VStr s
  end.

Definition of_optional_dict (o : option (gmap string value)) : value :=
  match o with
  | None => VNone
  | Some d => VDict d
  end.

(** [f'{o}'] for such an argument: [None] prints as its name. *)
Definition format_optional_str (o : option string) : string :=
  match o with
  | None => "None"
  | Some s => s
  end.

(** A parameter with a default: [None] stands for an argument left out at
    the call site (not for Python's [None]). *)
Definition or_default {A} (dflt : A) (arg : option A) : A :=
  match arg with
  | None => dflt
  | Some a => a
  end.

(** ** The [requests] library, as far as the client uses it

    One [Session.request] call is one dispatch: the session merges its
    header fields with those of the call, prepares the request and hands it
    to the transport. Redirects, cookies, proxies and credentials taken from
    the environment are the library's business and are not modelled; the
    server and the network are the oracle [adapter_send]. *)

Module requests.

(** [requests.structures.CaseInsensitiveDict]: the store is keyed by the
    lower-cased field name and keeps the name as it was last written. *)
Abbreviation CaseInsensitiveDict := (gmap string (string * string)).

Definition ci_setitem (name val : string) (h : CaseInsensitiveDict)
  : CaseInsensitiveDict :=
  <[PyStr.lower name := (name, val)]> h.

(** [h.update(items)], the items taken in the order they are written. *)
Definition ci_update (items : list (string * string)) (h : CaseInsensitiveDict)
  : CaseInsensitiveDict :=
  foldl (λ acc kv, ci_setitem kv.1 kv.2 acc) h items.

Definition ci_getitem (name : string) (h : CaseInsensitiveDict) : option string :=
  snd <$> h !! PyStr.lower name.

Definition ci_contains (name : string) (h : CaseInsensitiveDict) : bool :=
  match h !! PyStr.lower name with
  | Some _ => true
  | None => false
  end.



Record Response := mkResponse {
  status_code : Z;
  content : string
}.

(** The keyword arguments of [Session.request] that matter here; one left
    out is [None]. *)
Record kwargs := mkKwargs {
  kw_params : option (gmap string value);
  kw_json : option value;
  kw_headers : option (list (string * string))
}.

Definition no_kwargs : kwargs :=
  {| kw_params := None; kw_json := None; kw_headers := None |}.

(** [requests.Request], built by [Session.request] from its arguments. *)
Record Request := mkRequest {
  req_method : string;
  req_url : string;
  req_headers : option (list (string * string));
  req_params : gmap string value;
  req_json : option value
}.

(** [requests.PreparedRequest]: the request with the header fields that go
    out. The encoding of [req_params] into the URL and of [req_json] into
    the body is left to the library. *)
Record PreparedRequest := mkPrepared {
  request : Request;
  headers : CaseInsensitiveDict
}.

Record Session := mkSession {
  session_headers : CaseInsensitiveDict
}.

(** The exceptions that can leave [_request]. *)
Inductive exn : Type :=
  | RequestFailed
      (** raised by [Session.request] itself: [ConnectionError], [Timeout],
          an invalid URL or header field; there is no response *)
  | HTTPError (response : Response)
      (** raised by [Response.raise_for_status] *)
  | JSONDecodeError (doc : string)
      (** raised by [Response.json] *).

(** What the library and the world behind it provide. *)
Class Library := {
  default_user_agent : string;
  DEFAULT_ACCEPT_ENCODING : string;
  (** the transport: the answer to a prepared request, given the requests
      sent before it; [None] when no response comes back *)
  adapter_send : list PreparedRequest → PreparedRequest → option Response;
  (** [json.loads], [None] when the text is not valid JSON *)
  json_loads : string → option value;
  (** [json.dumps] *)
  json_dumps : value → string
}.

(** Computations that may raise and that dispatch requests: the state is
    the list of requests dispatched so far, one for each call of
    [Session.request], oldest first. *)
Definition M (A : Type) : Type :=
  list PreparedRequest → list PreparedRequest * (exn + A).

Definition ret {A} (a : A) : M A := λ w, (w, inr a).

Definition raise {A} (e : exn) : M A := λ w, (w, inl e).

Definition bind {A B} (m : M A) (k : A → M B) : M B :=
  λ w, match m w with
       | (w', inl e) => (w', inl e)
       | (w', inr a) => k a w'
       end.

End requests.

Notation "'do' x <- m ; k" := (requests.bind m (λ x, k))
  (at level 10, x name, m at level 100, k at level 200,
   format "'[v' 'do'  x  <-  m ; '/' k ']'").

(** *** The library's functions *)

Section Requests.
Import requests.
Context {lib : Library}.

(** [requests.utils.default_headers()] *)
Definition default_headers : CaseInsensitiveDict :=
  ci_update [("User-Agent", default_user_agent);
             ("Accept-Encoding", DEFAULT_ACCEPT_ENCODING);
             ("Accept", "*/*");
             ("Connection", "keep-alive")] ∅.

(** [requests.Session()] *)
Definition Session_new : Session :=
  {| session_headers := default_headers |}.

(** [merge_setting(request.headers, self.headers, CaseInsensitiveDict)] *)
Definition merge_headers (request_setting : option (list (string * string)))
    (session_setting : CaseInsensitiveDict) : CaseInsensitiveDict :=
  match request_setting with
  | None => session_setting
  | Some items => ci_update items session_setting
  end.

(** [Session.prepare_request]: the session's fields, overridden by the
    call's; a JSON body brings its content type unless one is set. *)
Definition prepare_request (s : Session) (req : Request) : PreparedRequest :=
  let merged := merge_headers (req_headers req) (session_headers s) in
  let with_body :=
    match req_json req with
    | Some _ =>
        if ci_contains "content-type" merged then merged
        else ci_setitem "Content-Type" "application/json" merged
    | None => merged
    end in
  {| request := req; headers := with_body |}.

(** The [Request] that [Session.request(method, url, **kwargs)] builds. *)
Definition build_request (method url : string) (kw : kwargs) : Request :=
  {| req_method := PyStr.upper method;
     req_url := url;
     req_headers := kw_headers kw;
     req_params := default ∅ (kw_params kw);
     req_json := kw_json kw |}.

(** [Session.request(method, url, **kwargs)]: build, prepare, send. *)
Definition Session_request (s : Session) (method url : string) (kw : kwargs)
  : M Response :=
  λ w,
    let prep := prepare_request s (build_request method url kw) in
    match adapter_send w prep with
    | Some resp => (w ++ [prep], inr resp)
    | None => (w ++ [prep], inl RequestFailed)
    end.

(** [Response.raise_for_status()] *)
Definition raise_for_status (r : Response) : M unit :=
  if ((400 <=? status_code r) && (status_code r <? 500))%Z then raise (HTTPError r)
  else if ((500 <=? status_code r) && (status_code r <? 600))%Z then raise (HTTPError r)
  else ret tt.

(** [Response.json()] *)
Definition Response_json (r : Response) : M value :=
  match json_loads (content r) with
  | Some v => ret v
  | None => raise (JSONDecodeError (content r))
  end.

End Requests.

(** ** [sdk/python/neuronip/client.py] *)

Section Client.
Import requests.
Context {lib : Library}.

Record NeuronIPClient := mkClient {
  base_url : string;
  api_key : option string;
  session : Session
}.

(** [NeuronIPClient.__init__(base_url, api_key=None)] *)
Definition __init__ (base_url : string) (api_key : option string)
  : NeuronIPClient :=
  let session := Session_new in
  let session :=
    if truthy (of_optional_str api_key) then
      {| session_headers :=
           ci_update [("Authorization", "Bearer " +:+ format_optional_str api_key);
                      ("Content-Type", "application/json")]
                     (session_headers session) |}
    else session in
  {| base_url := PyStr.rstrip slash base_url;
     api_key := api_key;
     session := session |}.

(** [NeuronIPClient._request(method, endpoint, **kwargs)] *)
Definition _request (self : NeuronIPClient) (method endpoint : string)
    (kw : kwargs) : M value :=
  let url := base_url self +:+ endpoint in
  do response <- Session_request (session self) method url kw;
  do _ <- raise_for_status response;
  Response_json response.

(** The request that [_request] sends out for given arguments. *)
Definition outbound (self : NeuronIPClient) (method endpoint : string)
    (kw : kwargs) : PreparedRequest :=
  prepare_request (session self)
    (build_request method (base_url self +:+ endpoint) kw).

Definition health_check (self : NeuronIPClient) : M value :=
  _request self "GET" "/health" no_kwargs.

(** [limit] defaults to 10. *)
Definition semantic_search (self : NeuronIPClient) (query : string)
    (limit : option Z) : M value :=
  let limit := or_default 10 limit in
  _request self "POST" "/semantic/search"
    {| kw_params := None;
       kw_json := Some (VDict (<["limit" := VInt limit]> {["query" := VStr query]}));
       kw_headers := None |}.

Definition warehouse_query (self : NeuronIPClient) (query : string)
    (schema_id : option string) : M value :=
  let payload : gmap string value := {["query" := VStr query]} in
  let payload :=
    if truthy (of_optional_str schema_id)
    then <["schema_id" := of_optional_str schema_id]> payload
    else payload in
  _request self "POST" "/warehouse/query"
    {| kw_params := None; kw_json := Some (VDict payload); kw_headers := None |}.

Definition create_ingestion_job (self : NeuronIPClient)
    (data_source_id job_type : string) (config : gmap string value) : M value :=
  _request self "POST" "/ingestion/jobs"
    {| kw_params := None;
       kw_json := Some (VDict (<["config" := VDict config]>
                               (<["job_type" := VStr job_type]>
                                {["data_source_id" := VStr data_source_id]})));
       kw_headers := None |}.

(** [limit] defaults to 100. *)
Definition list_ingestion_jobs (self : NeuronIPClient)
    (data_source_id : option string) (limit : option Z) : M value :=
  let limit := or_default 100 limit in
  let params : gmap string value := {["limit" := VInt limit]} in
  let params :=
    if truthy (of_optional_str data_source_id)
    then <["data_source_id" := of_optional_str data_source_id]> params
    else params in
  _request self "GET" "/ingestion/jobs"
    {| kw_params := Some params; kw_json := None; kw_headers := None |}.

Definition get_metric (self : NeuronIPClient) (metric_id : string) : M value :=
  _request self "GET" ("/metrics/" +:+ metric_id) no_kwargs.

Definition create_metric (self : NeuronIPClient) (metric : gmap string value)
  : M value :=
  _request self "POST" "/metrics"
    {| kw_params := None; kw_json := Some (VDict metric); kw_headers := None |}.

(** [params.update(filters)] is the union that prefers the entries of
    [filters]. [limit] defaults to 100. *)
Definition get_audit_logs (self : NeuronIPClient)
    (filters : option (gmap string value)) (limit : option Z) : M value :=
  let limit := or_default 100 limit in
  let params : gmap string value := {["limit" := VInt limit]} in
  let params :=
    if truthy (of_optional_dict filters)
    then default ∅ filters ∪ params
    else params in
  _request self "GET" "/audit/events"
    {| kw_params := Some params; kw_json := None; kw_headers := None |}.

(** A call of one of the resource methods, with its arguments. *)
Inductive call : Type :=
  | HealthCheck
  | SemanticSearch (query : string) (limit : option Z)
  | WarehouseQuery (query : string) (schema_id : option string)
  | CreateIngestionJob (data_source_id job_type : string)
      (config : gmap string value)
  | ListIngestionJobs (data_source_id : option string) (limit : option Z)
  | GetMetric (metric_id : string)
  | CreateMetric (metric : gmap string value)
  | GetAuditLogs (filters : option (gmap string value)) (limit : option Z).

Definition perform (self : NeuronIPClient) (c : call) : M value :=
  match c with
  | HealthCheck => health_check self
  | SemanticSearch q l => semantic_search self q l
  | WarehouseQuery q s => warehouse_query self q s
  | CreateIngestionJob d j c => create_ingestion_job self d j c
  | ListIngestionJobs d l => list_ingestion_jobs self d l
  | GetMetric m => get_metric self m
  | CreateMetric m => create_metric self m
  | GetAuditLogs f l => get_audit_logs self f l
  end.

End Client.

(** ** [scripts/create-test-api-key.py]

    [hashlib.sha256] is written out (FIPS 180-4), on 32-bit words kept in
    [Z]; [bcrypt.hashpw] stays a parameter. The random inputs of the script,
    [secrets.token_hex(16)] and [bcrypt.gensalt()], and the clock and the
    outcome of the [psql] process are arguments. *)

Module hashlib.

Definition mask32 (x : Z) : Z := Z.land x 0xffffffff.
Definition add32 (x y : Z) : Z := mask32 (x + y).
Definition rotr (n x : Z) : Z :=
  mask32 (Z.lor (Z.shiftr x n) (Z.shiftl x (32 - n))).
Definition shr (n x : Z) : Z := Z.shiftr x n.

Definition Ch (x y z : Z) : Z :=
  Z.lxor (Z.land x y) (Z.land (Z.lxor x 0xffffffff) z).
Definition Maj (x y z : Z) : Z :=
  Z.lxor (Z.lxor (Z.land x y) (Z.land x z)) (Z.land y z).
Definition Sigma0 (x : Z) : Z := Z.lxor (Z.lxor (rotr 2 x) (rotr 13 x)) (rotr 22 x).
Definition Sigma1 (x : Z) : Z := Z.lxor (Z.lxor (rotr 6 x) (rotr 11 x)) (rotr 25 x).
Definition sigma0 (x : Z) : Z := Z.lxor (Z.lxor (rotr 7 x) (rotr 18 x)) (shr 3 x).
Definition sigma1 (x : Z) : Z := Z.lxor (Z.lxor (rotr 17 x) (rotr 19 x)) (shr 10 x).

(** The square root and the cube root, rounded down. *)
Fixpoint root_bits (k : Z) (bits : nat) (r n : Z) : Z :=
  match bits with
  | O => r
  | S bits =>
      let r' := r + 2 ^ Z.of_nat bits in
      root_bits k bits (if r' ^ k <=? n then r' else r) n
  end.

(** The first 32 bits of the fractional part of the [k]-th root of [p]. *)
Definition frac_root (k p : Z) : Z :=
  mask32 (root_bits k 40 0 (p * 2 ^ (32 * k))).

Definition is_prime (n : Z) : bool :=
  forallb (λ d, negb (n mod d =? 0)) (seqZ 2 (n - 2)).

(** The first sixty-four primes: those up to 311. *)
Definition primes : list Z := filter (λ n, is_prime n = true) (seqZ 2 310).

(** The round constants: from the cube roots of the primes. *)
Definition K : list Z := map (frac_root 3) primes.

(** The eight working variables [a] to [h]. *)
Definition state : Type := Z * Z * Z * Z * Z * Z * Z * Z.

(** The initial hash value: from the square roots of the first eight
    primes. *)
Definition H0 : state :=
  (frac_root 2 2, frac_root 2 3, frac_root 2 5, frac_root 2 7,
   frac_root 2 11, frac_root 2 13, frac_root 2 17, frac_root 2 19).

(** The message, a [0x80] byte, zeros up to 56 modulo 64, and the length
    in bits as eight bytes, most significant first. *)
Definition pad (msg : list Z) : list Z :=
  let l := Z.of_nat (length msg) in
  msg ++ [0x80] ++ replicate (Z.to_nat ((55 - l) mod 64)) 0
      ++ map (λ i, Z.land (Z.shiftr (8 * l) (8 * i)) 0xff) [7; 6; 5; 4; 3; 2; 1; 0].

(** Big-endian 32-bit words. *)
Fixpoint words (bytes : list Z) : list Z :=
  match bytes with
  | b0 :: b1 :: b2 :: b3 :: rest =>
      Z.lor (Z.lor (Z.lor (Z.shiftl b0 24) (Z.shiftl b1 16)) (Z.shiftl b2 8)) b3
      :: words rest
  | _ => []
  end.

(** One round: [w] holds the sixteen schedule words from the current one
    on, and is extended by the next. *)
Definition round (st : state * list Z) (k : Z) : state * list Z :=
  let '((a, b, c, d, e, f, g, h), w) := st in
  let wt := List.nth 0 w 0 in
  let t1 := add32 (add32 (add32 (add32 h (Sigma1 e)) (Ch e f g)) k) wt in
  let t2 := add32 (Sigma0 a) (Maj a b c) in
  let wnew :=
    add32 (add32 (add32 (sigma1 (List.nth 14 w 0)) (List.nth 9 w 0))
                 (sigma0 (List.nth 1 w 0))) wt in
  ((add32 t1 t2, a, b, c, add32 d t1, e, f, g), drop 1 w ++ [wnew]).

Definition compress (hs : state) (block : list Z) : state :=
  let '(a0, b0, c0, d0, e0, f0, g0, h0) := hs in
  let '((a, b, c, d, e, f, g, h), _) := foldl round (hs, block) K in
  (add32 a0 a, add32 b0 b, add32 c0 c, add32 d0 d,
   add32 e0 e, add32 f0 f, add32 g0 g, add32 h0 h).

Fixpoint process (fuel : nat) (hs : state) (ws : list Z) : state :=
  match fuel, ws with
  | S fuel, _ :: _ => process fuel (compress hs (take 16 ws)) (drop 16 ws)
  | _, _ => hs
  end.

Definition hex_digit (n : Z) : ascii :=
  List.nth (Z.to_nat (Z.land n 15))
    (list_ascii_of_string "0123456789abcdef") "0"%char.

Definition hex8 (w : Z) (rest : string) : string :=
  String (hex_digit (Z.shiftr w 28)) (String (hex_digit (Z.shiftr w 24))
 (String (hex_digit (Z.shiftr w 20)) (String (hex_digit (Z.shiftr w 16))
 (String (hex_digit (Z.shiftr w 12)) (String (hex_digit (Z.shiftr w 8))
 (String (hex_digit (Z.shiftr w 4)) (String (hex_digit w) rest))))))).

Definition sha256 (msg : list Z) : state :=
  let ws := words (pad msg) in
  process (length ws) H0 ws.

(** [hashlib.sha256(s.encode()).hexdigest()] *)
Definition sha256_hexdigest (s : string) : string :=
  let '(a, b, c, d, e, f, g, h) :=
    sha256 (map (λ ch, Z.of_nat (nat_of_ascii ch)) (list_ascii_of_string s)) in
  hex8 a (hex8 b (hex8 c (hex8 d (hex8 e (hex8 f (hex8 g (hex8 h EmptyString))))))).

End hashlib.

Module create_test_api_key.

(** A row of [neuronip.api_keys], with the columns the script writes. *)
Record api_key_row := mkRow {
  key_hash : string;
  key_prefix : string;
  name : string;
  rate_limit : Z;
  created_at : Z
}.

(** The table, keyed by the column of its [ON CONFLICT] clause. *)
Abbreviation api_keys := (gmap string api_key_row).

Section Script.
(** [bcrypt.hashpw(password, salt)] *)
Variable bcrypt_hashpw : string → string → string.

Definition generate_api_key (token_hex : string) : string :=
  "test-key-" +:+ token_hex.

Definition hash_api_key (key salt : string) : string :=
  let sha256_hash := hashlib.sha256_hexdigest key in
  let bcrypt_hash := bcrypt_hashpw sha256_hash salt in
  bcrypt_hash.

(** [INSERT ... ON CONFLICT (key_prefix) DO UPDATE SET key_hash, name,
    rate_limit]: a row in conflict keeps its [created_at]. *)
Definition upsert (now : Z) (key_prefix bcrypt_hash : string)
    (table : api_keys) : api_keys :=
  let created :=
    match table !! key_prefix with
    | Some old => created_at old
    | None => now
    end in
  <[key_prefix := {| key_hash := bcrypt_hash;
                     key_prefix := key_prefix;
                     name := "Development Test Key";
                     rate_limit := 10000;
                     created_at := created |}]> table.

(** [psql_ok]: the [psql] process ended with return code 0, having
    applied the statement. *)
Definition create_api_key_in_db (psql_ok : bool) (now : Z)
    (key key_prefix bcrypt_hash : string) (table : api_keys)
  : api_keys * bool :=
  if psql_ok then (upsert now key_prefix bcrypt_hash table, true)
  else (table, false).

(** [main()]: the table afterwards and the exit status. The messages it
    prints are left out, and so is its test that [bcrypt] can be imported,
    which the import at the top of the script has already passed. *)
Definition main (token_hex salt : string) (psql_ok : bool) (now : Z)
    (table : api_keys) : api_keys * Z :=
  let key := generate_api_key token_hex in
  let key_prefix := PyStr.take 8 key in
  let bcrypt_hash := hash_api_key key salt in
  let '(table, created) :=
    create_api_key_in_db psql_ok now key key_prefix bcrypt_hash table in
  (table, if created then 0 else 1).

End Script.

(** A stand-in with the signature of [bcrypt.hashpw], to run the script on
    concrete inputs; it is not bcrypt and nothing is proved of it. *)
Definition hashpw_stand_in (password salt : string) : string :=
  salt +:+ password.

End create_test_api_key.

(** ** Instances for the scenarios

    A reader and a writer for JSON texts (integers only, the common escapes)
    and mock servers make [Library] concrete, so that the scenarios of the
    specification can be run. The theorems do not depend on them. *)

Module MiniJson.

Definition dquote : ascii := ascii_of_nat 34.
Definition backslash : ascii := ascii_of_nat 92.

Definition is_ws (c : ascii) : bool :=
  let n := nat_of_ascii c in
  (Nat.eqb n 32 || Nat.eqb n 9 || Nat.eqb n 10 || Nat.eqb n 13)%bool.

Definition digit_of (c : ascii) : option Z :=
  let n := nat_of_ascii c in
  if (Nat.leb 48 n && Nat.leb n 57)%bool then Some (Z.of_nat (n - 48)) else None.

Fixpoint skip_ws (s : string) : string :=
  match s with
  | String c r => if is_ws c then skip_ws r else s
  | EmptyString => s
  end.

(** [t] is a prefix of [s]: what follows it. *)
Fixpoint expect (t s : string) : option string :=
  match t, s with
  | EmptyString, _ => Some s
  | String a t', String b s' => if Ascii.eqb a b then expect t' s' else None
  | String _ _, EmptyString => None
  end.

Definition unescape (c : ascii) : option ascii :=
  if Ascii.eqb c dquote then Some dquote
  else if Ascii.eqb c backslash then Some backslash
  else if Ascii.eqb c "/" then Some "/"%char
  else if Ascii.eqb c "n" then Some (ascii_of_nat 10)
  else if Ascii.eqb c "t" then Some (ascii_of_nat 9)
  else if Ascii.eqb c "r" then Some (ascii_of_nat 13)
  else None.

(** After the opening quote: the characters up to the closing one. *)
Fixpoint read_string (s : string) : option (string * string) :=
  match s with
  | EmptyString => None
  | String c r =>
      if Ascii.eqb c dquote then Some (EmptyString, r)
      else if Ascii.eqb c backslash then
        match r with
        | String e r' =>
            match unescape e, read_string r' with
            | Some ch, Some (t, rest) => Some (String ch t, rest)
            | _, _ => None
            end
        | EmptyString => None
        end
      else if Nat.ltb (nat_of_ascii c) 32 then None
      else
        match read_string r with
        | Some (t, rest) => Some (String c t, rest)
        | None => None
        end
  end.

(** A run of digits, most significant first. *)
Fixpoint read_digits (acc : Z) (s : string) : Z * string :=
  match s with
  | String c r =>
      match digit_of c with
      | Some d => read_digits (10 * acc + d) r
      | None => (acc, s)
      end
  | EmptyString => (acc, s)
  end.

(** A JSON integer: no sign but [-], no leading zero; a fraction or an
    exponent after it makes the number a float, which [value] lacks. *)
Definition read_int (s : string) : option (Z * string) :=
  let '(neg, s1) :=
    match s with
    | String c r => if Ascii.eqb c "-" then (true, r) else (false, s)
    | EmptyString => (false, s)
    end in
  match s1 with
  | String c r =>
      match digit_of c with
      | Some d =>
          let '(n, rest) := if d =? 0 then (0, r) else read_digits d r in
          match rest with
          | String c' _ =>
              if (Ascii.eqb c' "." || Ascii.eqb c' "e" || Ascii.eqb c' "E"
                  || bool_decide (is_Some (digit_of c')))%bool
              then None else Some (if neg then - n else n, rest)
          | EmptyString => Some (if neg then - n else n, rest)
          end
      | None => None
      end
  | EmptyString => None
  end.

Fixpoint read_value (fuel : nat) (s : string) : option (value * string) :=
  match fuel with
  | O => None
  | S fuel =>
      match skip_ws s with
      | EmptyString => None
      | String c r =>
          if Ascii.eqb c "n" then (λ rest, (VNone, rest)) <$> expect "ull" r
          else if Ascii.eqb c "t" then (λ rest, (VBool true, rest)) <$> expect "rue" r
          else if Ascii.eqb c "f" then (λ rest, (VBool false, rest)) <$> expect "alse" r
          else if Ascii.eqb c dquote then
            (λ '(t, rest), (VStr t, rest)) <$> read_string r
          else if Ascii.eqb c "[" then
            match skip_ws r with
            | String c' r' =>
                if Ascii.eqb c' "]" then Some (VList [], r')
                else (λ '(l, rest), (VList l, rest)) <$> read_elements fuel r
            | EmptyString => None
            end
          else if Ascii.eqb c "{" then
            match skip_ws r with
            | String c' r' =>
                if Ascii.eqb c' "}" then Some (VDict ∅, r')
                else (λ '(d, rest), (VDict d, rest)) <$> read_members fuel ∅ r
            | EmptyString => None
            end
          else (λ '(n, rest), (VInt n, rest)) <$> read_int (String c r)
      end
  end
with read_elements (fuel : nat) (s : string) : option (list value * string) :=
  match fuel with
  | O => None
  | S fuel =>
      match read_value fuel s with
      | Some (v, rest) =>
          match skip_ws rest with
          | String c r =>
              if Ascii.eqb c "]" then Some ([v], r)
              else if Ascii.eqb c "," then
                (λ '(l, rest'), (v :: l, rest')) <$> read_elements fuel r
              else None
          | EmptyString => None
          end
      | None => None
      end
  end
with read_members (fuel : nat) (acc : gmap string value) (s : string)
    : option (gmap string value * string) :=
  match fuel with
  | O => None
  | S fuel =>
      match skip_ws s with
      | String q r =>
          if Ascii.eqb q dquote then
            match read_string r with
            | Some (k, rest) =>
                match skip_ws rest with
                | String colon r1 =>
                    if Ascii.eqb colon ":" then
                      match read_value fuel r1 with
                      | Some (v, rest1) =>
                          match skip_ws rest1 with
                          | String c r2 =>
                              if Ascii.eqb c "}" then Some (<[k := v]> acc, r2)
                              else if Ascii.eqb c "," then
                                read_members fuel (<[k := v]> acc) r2
                              else None
                          | EmptyString => None
                          end
                      | None => None
                      end
                    else None
                | EmptyString => None
                end
            | None => None
            end
          else None
      | EmptyString => None
      end
  end.

(** [json.loads]: one value, with nothing but white space after it. *)
Definition loads (s : string) : option value :=
  match read_value (2 * String.length s + 2) s with
  | Some (v, rest) =>
      match skip_ws rest with
      | EmptyString => Some v
      | String _ _ => None
      end
  | None => None
  end.

Fixpoint escape (s : string) : string :=
  match s with
  | EmptyString => EmptyString
  | String c r =>
      if (Ascii.eqb c dquote || Ascii.eqb c backslash)%bool
      then String backslash (String c (escape r))
      else String c (escape r)
  end.

Definition quote (s : string) : string :=
  String dquote (escape s +:+ String dquote EmptyString).

Fixpoint join (sep : string) (l : list string) : string :=
  match l with
  | [] => EmptyString
  | [x] => x
  | x :: l' => x +:+ sep +:+ join sep l'
  end.

(** [json.dumps] with the most compact separators. *)
Fixpoint dumps (v : value) : string :=
  match v with
  | VNone => "null"
  | VBool true => "true"
  | VBool false => "false"
  | VInt z => pretty z
  | VStr s => quote s
  | VList l => "[" +:+ join "," (map dumps l) +:+ "]"
  | VDict d =>
      "{" +:+ join "," (map (λ kv, quote kv.1 +:+ ":" +:+ kv.2)
                         (map_to_list (dumps <$> d))) +:+ "}"
  end.

End MiniJson.

Definition mock_library
    (server : list requests.PreparedRequest → requests.PreparedRequest →
              option requests.Response) : requests.Library :=
  {| requests.default_user_agent := "python-requests/2.32.3";
     requests.DEFAULT_ACCEPT_ENCODING := "gzip, deflate";
     requests.adapter_send := server;
     requests.json_loads := MiniJson.loads;
     requests.json_dumps := MiniJson.dumps |}.

(** A server that answers every request alike. *)
Definition always (status : Z) (body : string)
    : list requests.PreparedRequest → requests.PreparedRequest →
      option requests.Response :=
  λ _ _, Some {| requests.status_code := status; requests.content := body |}.

(** A server that cannot be reached. *)
Definition unreachable
    : list requests.PreparedRequest → requests.PreparedRequest →
      option requests.Response :=
  λ _ _, None.

(** The servers of the scenarios, and one that answers with a status beyond
    the 5xx range. *)
Definition healthy_server :=
  always 200 (MiniJson.dumps (VDict {["status" := VStr "ok"]})).

Definition failing_server :=
  always 500 (MiniJson.dumps (VDict {["error" := VStr "internal"]})).


Definition odd_server := always 600 "{}".

(** The client of [examples/python/basic_usage.py]. *)
Definition example_url : string := "http://localhost:8082/api/v1".

Definition example_client (lib : requests.Library) : NeuronIPClient :=
  __init__ example_url (Some "your-api-key-here").

(** ** [examples/python/basic_usage.py]

    The example script is a caller of the client: six calls in a row, each
    followed by an access to its result. An exception ends it. What it
    prints is not modelled. *)

Module basic_usage.

(** What can end the script: an exception of the client, or one of the
    accesses to a result. *)
Inductive error : Type :=
  | Raised (e : requests.exn)
  | KeyError (key : string)
  | TypeError
  | AttributeError.

Definition Script (A : Type) : Type :=
  list requests.PreparedRequest → list requests.PreparedRequest * (error + A).

Definition ret {A} (a : A) : Script A := λ w, (w, inr a).

Definition bind {A B} (m : Script A) (k : A → Script B) : Script B :=
  λ w, match m w with
       | (w', inl e) => (w', inl e)
       | (w', inr a) => k a w'
       end.

(** A call of the client inside the script. *)
Definition call {A} (m : requests.M A) : Script A :=
  λ w, match m w with
       | (w', inl e) => (w', inl (Raised e))
       | (w', inr a) => (w', inr a)
       end.

(** An expression that may raise and sends nothing. *)
Definition eval {A} (r : error + A) : Script A := λ w, (w, r).

(** [v[key]] for a string key: only a [dict] can be subscripted by one. *)
Definition getitem (v : value) (key : string) : error + value :=
  match v with
  | VDict d =>
      match d !! key with
      | Some x => inr x
      | None => inl (KeyError key)
      end
  | _ => inl TypeError
  end.

(** [v.get(key, dflt)]: only a [dict] has the method. *)
Definition get (v : value) (key : string) (dflt : value) : error + value :=
  match v with
  | VDict d => inr (default dflt (d !! key))
  | _ => inl AttributeError
  end.

(** [len(v)]: of a [str] (counted in bytes here), a [list] or a [dict]. *)
Definition len (v : value) : error + nat :=
  match v with
  | VStr s => inr (String.length s)
  | VList l => inr (length l)
  | VDict d => inr (size d)
  | _ => inl TypeError
  end.

End basic_usage.

Notation "'run' x <- m ; k" := (basic_usage.bind m (λ x, k))
  (at level 10, x name, m at level 100, k at level 200,
   format "'[v' 'run'  x  <-  m ; '/' k ']'").

Section BasicUsage.
Import requests basic_usage.
Context {lib : Library}.

Definition usage_client : NeuronIPClient :=
  __init__ "http://localhost:8082/api/v1" (Some "your-api-key-here").

Definition usage_config : gmap string value :=
  <["tables" := VList [VStr "users"; VStr "orders"]]> {["mode" := VStr "full"]}.

(** The script, top to bottom; what it prints is left out. *)
Definition usage_main : Script unit :=
  let client := usage_client in
  run health <- call (health_check client);
  run _ <- eval (getitem health "status");
  run results <- call (semantic_search client "machine learning algorithms" (Some 10));
  run found <- eval (get results "results" (VList []));
  run _ <- eval (len found);
  run query_result <-
    call (warehouse_query client "Show me total sales by region" None);
  run _ <- eval (get query_result "query_id" VNone);
  run job <- call (create_ingestion_job client "your-data-source-id" "sync"
                     usage_config);
  run _ <- eval (getitem job "id");
  run jobs <- call (list_ingestion_jobs client None (Some 10));
  run _ <- eval (len jobs);
  run audit_logs <- call (get_audit_logs client None (Some 20));
  run _ <- eval (len audit_logs);
  basic_usage.ret tt.

(** The requests of the script, in program order. *)
Definition usage_requests : list PreparedRequest :=
  let client := usage_client in
  [ outbound client "GET" "/health" no_kwargs;
    outbound client "POST" "/semantic/search"
      {| kw_params := None;
         kw_json := Some (VDict (<["limit" := VInt 10]>
                                 {["query" := VStr "machine learning algorithms"]}));
         kw_headers := None |};
    outbound client "POST" "/warehouse/query"
      {| kw_params := None;
         kw_json := Some (VDict {["query" := VStr "Show me total sales by region"]});
         kw_headers := None |};
    outbound client "POST" "/ingestion/jobs"
      {| kw_params := None;
         kw_json := Some (VDict (<["config" := VDict usage_config]>
                                 (<["job_type" := VStr "sync"]>
                                  {["data_source_id" := VStr "your-data-source-id"]})));
         kw_headers := None |};
    outbound client "GET" "/ingestion/jobs"
      {| kw_params := Some {["limit" := VInt 10]};
         kw_json := None; kw_headers := None |};
    outbound client "GET" "/audit/events"
      {| kw_params := Some {["limit" := VInt 20]};
         kw_json := None; kw_headers := None |} ].

End BasicUsage.

(** A server for the script: it answers the six requests, in their order,
    with what the script reads from them. *)
Definition usage_server
    : list requests.PreparedRequest → requests.PreparedRequest →
      option requests.Response :=
  λ w _,
    let answer :=
      match length w with
      | 0%nat => VDict {["status" := VStr "ok"]}
      | 1%nat => VDict {["results" := VList []]}
      | 2%nat => VDict {["query_id" := VStr "q-1"]}
      | 3%nat => VDict {["id" := VStr "job-1"]}
      | _ => VList []
      end in
    Some {| requests.status_code := 200;
            requests.content := MiniJson.dumps answer |}.

(** ** Predicates used by the further properties *)


(** The characters of a lower-case hexadecimal numeral. *)
Definition is_lower_hex (c : ascii) : bool :=
  let n := nat_of_ascii c in
  ((Nat.leb 48 n && Nat.leb n 57) || (Nat.leb 97 n && Nat.leb n 102))%bool.

Fixpoint string_forallb (f : ascii → bool) (s : string) : bool :=
  match s with
  | EmptyString => true
  | String c r => f c && string_forallb f r
  end.

(* ===================================================================== *)
(** * Part II: theorems                                                   *)
(* ===================================================================== *)

Module PyStrFacts.
Import PyStr.

Lemma rstrip_replicate c k : rstrip c (replicate k c) = "".
Proof.
  induction k as [|k IH]; simpl; [done|].
  rewrite IH. by rewrite Ascii.eqb_refl.
Qed.


Lemma last_rstrip c s : last (rstrip c s) ≠ Some c.
Proof.
  induction s as [|a s IH]; simpl; [done|].
  destruct (rstrip c s) as [|a' r] eqn:E.
  - destruct (Ascii.eqb a c) eqn:Eac; simpl; [done|].
    apply Ascii.eqb_neq in Eac. congruence.
  - simpl in *. exact IH.
Qed.

Lemma rstrip_idem c s : rstrip c (rstrip c s) = rstrip c s.
Proof.
  induction s as [|a s IH]; simpl; [done|].
  destruct (rstrip c s) as [|a' r] eqn:E.
  - destruct (Ascii.eqb a c) eqn:Eac; simpl; [done|]. by rewrite Eac.
  - change (rstrip c (String a (String a' r))) with
      (match rstrip c (String a' r) with
       | "" => if Ascii.eqb a c then "" else String a ""
       | r0 => String a r0 end).
    by rewrite IH.
Qed.

Lemma length_append s1 s2 :
  String.length (s1 +:+ s2) = (String.length s1 + String.length s2)%nat.
Proof. induction s1 as [|a s1 IH]; simpl; [done|]. by rewrite IH. Qed.




End PyStrFacts.

(** ** The dispatch operation *)

Section RequestFacts.
Import requests.
Context {lib : Library}.

Lemma raise_for_status_failure r w :
  400 ≤ status_code r ≤ 599 → raise_for_status r w = (w, inl (HTTPError r)).
Proof.
  intros Hs. unfold raise_for_status.
  destruct (Z.ltb_spec (status_code r) 500).
  - replace (400 <=? status_code r) with true by (symmetry; apply Z.leb_le; lia).
    done.
  - replace (status_code r <? 500) with false by (symmetry; apply Z.ltb_ge; lia).
    rewrite andb_false_r.
    replace (500 <=? status_code r) with true by (symmetry; apply Z.leb_le; lia).
    replace (status_code r <? 600) with true by (symmetry; apply Z.ltb_lt; lia).
    done.
Qed.

Lemma raise_for_status_pass r w :
  status_code r < 400 ∨ 600 ≤ status_code r → raise_for_status r w = (w, inr tt).
Proof.
  intros Hs. unfold raise_for_status.
  destruct Hs as [Hs|Hs].
  - replace (400 <=? status_code r) with false by (symmetry; apply Z.leb_gt; lia).
    replace (500 <=? status_code r) with false by (symmetry; apply Z.leb_gt; lia).
    done.
  - replace (status_code r <? 500) with false by (symmetry; apply Z.ltb_ge; lia).
    replace (status_code r <? 600) with false by (symmetry; apply Z.ltb_ge; lia).
    by rewrite !andb_false_r.
Qed.

(** [_request] sends exactly one request, whatever comes of it. *)
Lemma request_one_dispatch self method endpoint kw w :
  (_request self method endpoint kw w).1 = w ++ [outbound self method endpoint kw].
Proof.
  unfold _request, bind, Session_request. fold (outbound self method endpoint kw).
  destruct (adapter_send w _) as [r|]; [|done].
  unfold raise_for_status.
  destruct (_ && _); [done|]. destruct (_ && _); [done|].
  unfold ret, Response_json. by destruct (json_loads _).
Qed.

Lemma request_no_response self method endpoint kw w :
  adapter_send w (outbound self method endpoint kw) = None →
  _request self method endpoint kw w
  = (w ++ [outbound self method endpoint kw], inl RequestFailed).
Proof.
  intros Hsend. unfold _request, bind, Session_request.
  fold (outbound self method endpoint kw). by rewrite Hsend.
Qed.

Lemma request_response self method endpoint kw w r :
  adapter_send w (outbound self method endpoint kw) = Some r →
  _request self method endpoint kw w
  = (do _ <- raise_for_status r; Response_json r)
      (w ++ [outbound self method endpoint kw]).
Proof.
  intros Hsend. unfold _request, bind, Session_request.
  fold (outbound self method endpoint kw). by rewrite Hsend.
Qed.

(** C1 (amended): for every response with a status from 400 to 599,
    [_request] raises [HTTPError] carrying the response itself, so its
    status code and its raw body; it has sent exactly one request, with no
    retry, and returns no value. *)
Theorem request_http_error self method endpoint kw w r :
  adapter_send w (outbound self method endpoint kw) = Some r →
  400 ≤ status_code r ≤ 599 →
  _request self method endpoint kw w
  = (w ++ [outbound self method endpoint kw], inl (HTTPError r)).
Proof.
  intros Hsend Hs. rewrite (request_response _ _ _ _ _ r Hsend).
  unfold bind. by rewrite raise_for_status_failure.
Qed.



End RequestFacts.

(** ** Authentication *)

Section CredentialFacts.
Import requests.
Context {lib : Library}.

(** Every resource method is one [_request] that passes no header fields
    of its own. *)
Lemma perform_is_request self c :
  ∃ method endpoint kw,
    perform self c = _request self method endpoint kw
    ∧ kw_headers kw = None
    ∧ PyStr.first endpoint = Some slash.
Proof.
  destruct c; simpl; eexists _, _, _; split_and!; reflexivity.
Qed.

Lemma perform_one_dispatch self c w :
  ∃ method endpoint kw,
    kw_headers kw = None ∧
    (perform self c w).1 = w ++ [outbound self method endpoint kw].
Proof.
  destruct (perform_is_request self c) as (m & e & kw & -> & Hkw & _).
  exists m, e, kw. split; [done|]. apply request_one_dispatch.
Qed.




End CredentialFacts.

(** ** The target URL *)

Section UrlFacts.
Import requests PyStr PyStrFacts.
Context {lib : Library}.

Lemma init_base_url url api_key :
  base_url (__init__ url api_key) = rstrip slash url.
Proof. done. Qed.


End UrlFacts.

(** ** Shaping of bodies and query parameters *)

Section ShapingFacts.
Import requests.
Context {lib : Library}.

Lemma truthy_str_nonempty s : s ≠ "" → truthy (VStr s) = true.
Proof. by destruct s. Qed.

Lemma truthy_dict_nonempty (d : gmap string value) :
  d ≠ ∅ → truthy (VDict d) = true.
Proof.
  intros Hd. simpl. apply negb_true_iff, Nat.eqb_neq.
  by rewrite map_size_empty_iff.
Qed.

Lemma falsy_optional_str o :
  truthy (of_optional_str o) = false ↔ o = None ∨ o = Some "".
Proof.
  destruct o as [[|a s]|]; simpl; split; try done; auto.
  intros [?|?]; done.
Qed.


(** C6 (amended): [warehouse_query(query)] with no [schema_id] sends as
    body exactly the one-key mapping of ["query"] to the query, in which
    there is no ["schema_id"] key; with a non-empty [schema_id] the body has
    that second key as well. *)
Theorem warehouse_query_body self query w :
  (warehouse_query self query None w).1
  = w ++ [outbound self "POST" "/warehouse/query"
            {| kw_params := None;
               kw_json := Some (VDict {["query" := VStr query]});
               kw_headers := None |}]
  ∧ ({["query" := VStr query]} : gmap string value) !! "schema_id" = None
  ∧ size ({["query" := VStr query]} : gmap string value) = 1%nat
  ∧ (∀ schema_id, schema_id ≠ "" →
       (warehouse_query self query (Some schema_id) w).1
       = w ++ [outbound self "POST" "/warehouse/query"
                 {| kw_params := None;
                    kw_json := Some (VDict (<["schema_id" := VStr schema_id]>
                                            {["query" := VStr query]}));
                    kw_headers := None |}]).
Proof.
  split_and!.
  - apply request_one_dispatch.
  - done.
  - apply map_size_singleton.
  - intros schema_id Hne. unfold warehouse_query.
    rewrite (truthy_str_nonempty _ Hne : truthy (of_optional_str (Some schema_id)) = true).
    apply request_one_dispatch.
Qed.

(** C7 (amended): [list_ingestion_jobs(limit=n)] with no [data_source_id]
    sends the query parameters [{"limit": n}] and no other; a limit left
    out is 100; a non-empty [data_source_id] is added as a second
    parameter. *)
Theorem list_ingestion_jobs_params self w :
  (∀ n, (list_ingestion_jobs self None (Some n) w).1
        = w ++ [outbound self "GET" "/ingestion/jobs"
                  {| kw_params := Some {["limit" := VInt n]};
                     kw_json := None; kw_headers := None |}])
  ∧ list_ingestion_jobs self None None = list_ingestion_jobs self None (Some 100)
  ∧ (∀ data_source_id n, data_source_id ≠ "" →
       (list_ingestion_jobs self (Some data_source_id) (Some n) w).1
       = w ++ [outbound self "GET" "/ingestion/jobs"
                 {| kw_params := Some (<["data_source_id" := VStr data_source_id]>
                                       {["limit" := VInt n]});
                    kw_json := None; kw_headers := None |}]).
Proof.
  split_and!.
  - intros n. apply request_one_dispatch.
  - done.
  - intros d n Hne. unfold list_ingestion_jobs.
    rewrite (truthy_str_nonempty _ Hne : truthy (of_optional_str (Some d)) = true).
    apply request_one_dispatch.
Qed.

(** C8: for every non-empty [filters], [get_audit_logs(filters, limit)]
    sends the limit entry updated with the filters: every entry of
    [filters] is among the query parameters, so a ["limit"] key in
    [filters] replaces the [limit] argument, which is sent only when
    [filters] has no such key. *)
Theorem audit_filters_override self (filters : gmap string value) limit w :
  filters ≠ ∅ →
  ∃ params : gmap string value,
    (get_audit_logs self (Some filters) limit w).1
    = w ++ [outbound self "GET" "/audit/events"
              {| kw_params := Some params; kw_json := None; kw_headers := None |}]
    ∧ (∀ k v, filters !! k = Some v → params !! k = Some v)
    ∧ (∀ v, filters !! "limit" = Some v → params !! "limit" = Some v)
    ∧ (filters !! "limit" = None →
       params !! "limit" = Some (VInt (or_default 100 limit)))
    ∧ (∀ k, k ≠ "limit" → params !! k = filters !! k).
Proof.
  intros Hne. exists (filters ∪ {["limit" := VInt (or_default 100 limit)]}).
  split_and!.
  - unfold get_audit_logs.
    rewrite (truthy_dict_nonempty _ Hne : truthy (of_optional_dict (Some filters)) = true).
    apply request_one_dispatch.
  - intros k v Hk. by apply lookup_union_Some_l.
  - intros v Hk. by apply lookup_union_Some_l.
  - intros Hk. rewrite lookup_union_r by done. apply lookup_singleton_eq.
  - intros k Hk. rewrite lookup_union, lookup_singleton_ne by done.
    by destruct (filters !! k).
Qed.

(** C10: presence of an optional argument is decided by truthiness: a
    falsy [schema_id], [data_source_id] or [filters] (the empty string, the
    empty mapping, [None]) gives the very computation, hence the very
    request, that the absent argument gives. *)
Theorem falsy_argument_is_absent self query limit :
  (∀ schema_id, truthy (of_optional_str schema_id) = false →
     warehouse_query self query schema_id = warehouse_query self query None)
  ∧ (∀ data_source_id, truthy (of_optional_str data_source_id) = false →
       list_ingestion_jobs self data_source_id limit
       = list_ingestion_jobs self None limit)
  ∧ (∀ filters, truthy (of_optional_dict filters) = false →
       get_audit_logs self filters limit = get_audit_logs self None limit)
  ∧ warehouse_query self query (Some "") = warehouse_query self query None
  ∧ list_ingestion_jobs self (Some "") limit = list_ingestion_jobs self None limit
  ∧ get_audit_logs self (Some ∅) limit = get_audit_logs self None limit.
Proof.
  split_and!; try done.
  - intros s Hs. unfold warehouse_query. by rewrite Hs.
  - intros d Hd. unfold list_ingestion_jobs. by rewrite Hd.
  - intros f Hf. unfold get_audit_logs. by rewrite Hf.
Qed.

End ShapingFacts.

(** ** The key-provisioning script *)

Section ScriptFacts.
Import create_test_api_key.
Variable bcrypt_hashpw : string → string → string.

Lemma sha256_hexdigest_length m :
  String.length (hashlib.sha256_hexdigest m) = 64%nat.
Proof.
  unfold hashlib.sha256_hexdigest.
  by destruct (hashlib.sha256 _) as [[[[[[[a b] c] d] e] f] g] h].
Qed.

Lemma key_prefix_constant token_hex :
  PyStr.take 8 (generate_api_key token_hex) = "test-key".
Proof. done. Qed.

(** C9: for every generated key, when the statement is applied the row
    stored under the key's prefix has as [key_prefix] the first 8 characters
    of the key, and as [key_hash] the bcrypt hash of the hexadecimal SHA-256
    digest of the key: what bcrypt hashes is that digest, 64 characters
    long, never the raw key. *)
Theorem stored_prefix_and_digest token_hex salt now table :
  String.length token_hex = 32%nat →
  let key := generate_api_key token_hex in
  let digest := hashlib.sha256_hexdigest key in
  ∃ row rest,
    main bcrypt_hashpw token_hex salt true now table
    = (<[key_prefix row := row]> table, 0)
    ∧ key = key_prefix row +:+ rest
    ∧ String.length (key_prefix row) = 8%nat
    ∧ key_prefix row = PyStr.take 8 key
    ∧ key_hash row = bcrypt_hashpw digest salt
    ∧ hash_api_key bcrypt_hashpw key salt = bcrypt_hashpw digest salt
    ∧ String.length digest = 64%nat
    ∧ digest ≠ key.
Proof.
  intros Hlen key digest.
  eexists (mkRow _ _ _ _ _), (String "-" token_hex).
  split_and!; try reflexivity.
  - apply sha256_hexdigest_length.
  - intros Heq. apply (f_equal String.length) in Heq.
    unfold digest in Heq. rewrite sha256_hexdigest_length in Heq.
    unfold key, generate_api_key in Heq.
    rewrite PyStrFacts.length_append, Hlen in Heq. done.
Qed.

End ScriptFacts.

(** ** The scenarios of the specification, run on the mock servers *)

Section Scenarios.
Import requests.

(** C1, the status-500 scenario: [HTTPError] with status 500 and the body
    the server sent. *)
Lemma request_http_error_witness :
  let lib := mock_library failing_server in
  health_check (example_client lib) []
  = ([outbound (example_client lib) "GET" "/health" no_kwargs],
     inl (HTTPError {| status_code := 500;
                       content := MiniJson.dumps
                                    (VDict {["error" := VStr "internal"]}) |})).
Proof.
  intros lib. unfold health_check.
  apply (request_http_error (lib := lib)); [reflexivity | simpl; lia].
Defined.

(** C1 as stated fails: a response with status 600 is at least 400, and
    [_request] raises nothing and returns the decoded body. *)
Lemma status_600_is_returned :
  let lib := mock_library odd_server in
  let p := outbound (example_client lib) "GET" "/health" no_kwargs in
  adapter_send [] p = Some {| status_code := 600; content := "{}" |}
  ∧ 400 ≤ 600
  ∧ _request (example_client lib) "GET" "/health" no_kwargs []
    = ([p], inr (VDict ∅)).
Proof. split_and!; [reflexivity | lia | vm_compute; reflexivity]. Qed.






(** C6, the scenario of the example query, and the same query with a
    schema. *)
Lemma warehouse_query_body_witness :
  let lib := mock_library healthy_server in
  let self := example_client lib in
  let query := "Show me total sales by region" in
  (warehouse_query self query None []).1
  = [outbound self "POST" "/warehouse/query"
       {| kw_params := None;
          kw_json := Some (VDict {["query" := VStr query]});
          kw_headers := None |}]
  ∧ (warehouse_query self query (Some "sales") []).1
    = [outbound self "POST" "/warehouse/query"
         {| kw_params := None;
            kw_json := Some (VDict (<["schema_id" := VStr "sales"]>
                                    {["query" := VStr query]}));
            kw_headers := None |}].
Proof.
  intros lib self query.
  destruct (warehouse_query_body (lib := lib) self query [])
    as (Hnone & _ & _ & Hsome).
  split; [exact Hnone|]. apply Hsome. discriminate.
Defined.

(** C6 as stated fails: an empty [schema_id] is provided and is not
    included. *)
Lemma empty_schema_id_is_left_out :
  let lib := mock_library healthy_server in
  let self := example_client lib in
  let query := "Show me total sales by region" in
  (warehouse_query self query (Some "") []).1
  = [outbound self "POST" "/warehouse/query"
       {| kw_params := None;
          kw_json := Some (VDict {["query" := VStr query]});
          kw_headers := None |}]
  ∧ ({["query" := VStr query]} : gmap string value) !! "schema_id" = None.
Proof. split; reflexivity. Qed.

(** C7, the scenario [list_ingestion_jobs(limit=10)], and the same call
    with a data source. *)
Lemma list_ingestion_jobs_params_witness :
  let lib := mock_library healthy_server in
  let self := example_client lib in
  (list_ingestion_jobs self None (Some 10) []).1
  = [outbound self "GET" "/ingestion/jobs"
       {| kw_params := Some {["limit" := VInt 10]};
          kw_json := None; kw_headers := None |}]
  ∧ (list_ingestion_jobs self (Some "your-data-source-id") (Some 10) []).1
    = [outbound self "GET" "/ingestion/jobs"
         {| kw_params := Some (<["data_source_id" := VStr "your-data-source-id"]>
                               {["limit" := VInt 10]});
            kw_json := None; kw_headers := None |}].
Proof.
  intros lib self.
  destruct (list_ingestion_jobs_params (lib := lib) self [])
    as (Hnone & _ & Hsome).
  split; [apply Hnone|]. apply Hsome. discriminate.
Defined.

(** C7 as stated fails: an empty [data_source_id] is provided and is not
    added. *)
Lemma empty_data_source_id_is_left_out :
  let lib := mock_library healthy_server in
  let self := example_client lib in
  (list_ingestion_jobs self (Some "") (Some 10) []).1
  = [outbound self "GET" "/ingestion/jobs"
       {| kw_params := Some {["limit" := VInt 10]};
          kw_json := None; kw_headers := None |}]
  ∧ ({["limit" := VInt 10]} : gmap string value) !! "data_source_id" = None.
Proof. split; reflexivity. Qed.

(** C8 at [get_audit_logs({"limit": 5, "user": "ada"}, limit=20)]: the
    limit sent is 5. *)
Lemma audit_filters_override_witness :
  let lib := mock_library healthy_server in
  let filters : gmap string value :=
    <["user" := VStr "ada"]> {["limit" := VInt 5]} in
  ∃ params : gmap string value,
    (get_audit_logs (example_client lib) (Some filters) (Some 20) []).1
    = [outbound (example_client lib) "GET" "/audit/events"
         {| kw_params := Some params; kw_json := None; kw_headers := None |}]
    ∧ params !! "limit" = Some (VInt 5)
    ∧ params !! "user" = Some (VStr "ada").
Proof.
  intros lib filters.
  destruct (audit_filters_override (lib := lib) (example_client lib)
              filters (Some 20) [] (insert_non_empty _ _ _))
    as (params & Hlog & Hall & Hlimit & _).
  exists params. split; [exact Hlog|]. split.
  - apply Hlimit. reflexivity.
  - apply Hall. reflexivity.
Defined.

(** C9 on one token: the row is stored under [test-key], and what bcrypt
    is given is the SHA-256 digest of the key in hexadecimal. *)
Lemma stored_prefix_and_digest_witness :
  let token_hex := "00112233445566778899aabbccddeeff" in
  let hashpw := create_test_api_key.hashpw_stand_in in
  ∃ row,
    (create_test_api_key.main hashpw token_hex "salt" true 0 ∅).1 !! "test-key"
    = Some row
    ∧ create_test_api_key.key_prefix row = "test-key"
    ∧ create_test_api_key.key_hash row
      = hashpw "1e29030a693b13852acf4bb35ae9985210a048e8e481d955248884658c30dbe7"
               "salt".
Proof.
  intros token_hex hashpw.
  destruct (stored_prefix_and_digest hashpw token_hex "salt" 0 ∅ eq_refl)
    as (row & rest & Hmain & _ & _ & Hprefix & Hhash & _).
  exists row. rewrite Hmain. simpl. rewrite Hprefix. split_and!.
  - apply lookup_insert_eq.
  - reflexivity.
  - rewrite Hhash. vm_compute. reflexivity.
Defined.

End Scenarios.

(* ===================================================================== *)
(** * Part III: further properties of the code                            *)
(* ===================================================================== *)

(** ** Outcomes of the dispatch operation *)

Section DispatchOutcomes.
Import requests.
Context {lib : Library}.

(** X1: [_request] returns a value exactly when a response came back whose
    status is outside 400 to 599 and whose body decodes, and the value is
    that decoded body. So an answer with a 1xx or 3xx status, or with one of
    600 and more, is decoded like a 2xx answer. *)
Theorem request_returns_iff self method endpoint kw w v :
  (_request self method endpoint kw w).2 = inr v
  ↔ ∃ r, adapter_send w (outbound self method endpoint kw) = Some r
         ∧ ¬ (400 ≤ status_code r ≤ 599)
         ∧ json_loads (content r) = Some v.
Proof.
  destruct (adapter_send w (outbound self method endpoint kw)) as [r|] eqn:Hsend.
  - rewrite (request_response _ _ _ _ _ r Hsend). unfold bind.
    destruct (decide (400 ≤ status_code r ≤ 599)) as [Hs|Hs].
    + rewrite raise_for_status_failure by done. simpl. split; [done|].
      intros (r' & Hr' & Hn & _). by simplify_eq.
    + rewrite raise_for_status_pass by lia. unfold Response_json.
      destruct (json_loads (content r)) as [v'|] eqn:Hv; simpl.
      * split.
        -- intros [= ->]. eauto.
        -- intros (r' & Hr' & _ & Hv'). simplify_eq; try done; congruence.
      * split; [done|]. intros (r' & Hr' & _ & Hv'). simplify_eq; try done; congruence.
  - rewrite request_no_response by done. simpl. split; [done|].
    by intros (r & Hr & _).
Qed.



End DispatchOutcomes.

(** ** Header fields *)

Section HeaderFacts.
Import requests.
Context {lib : Library}.













Lemma outbound_default_fields url api_key method endpoint kw :
  kw_headers kw = None →
  let h := headers (outbound (__init__ url api_key) method endpoint kw) in
  ci_getitem "User-Agent" h = Some default_user_agent
  ∧ ci_getitem "Accept-Encoding" h = Some DEFAULT_ACCEPT_ENCODING
  ∧ ci_getitem "Accept" h = Some "*/*"
  ∧ ci_getitem "Connection" h = Some "keep-alive".
Proof.
  destruct kw as [ps [j|] hs]; simpl; intros ->;
    destruct api_key as [[|a k]|]; vm_compute; done.
Qed.

Lemma outbound_content_type_no_key url api_key method endpoint kw :
  api_key = None ∨ api_key = Some "" →
  kw_headers kw = None →
  ci_getitem "Content-Type"
    (headers (outbound (__init__ url api_key) method endpoint kw))
  = match kw_json kw with Some _ => Some "application/json" | None => None end.
Proof.
  destruct kw as [ps [j|] hs]; simpl; intros [-> | ->] ->; vm_compute; done.
Qed.

(** X6: setting the credential adds to the session's header fields and
    replaces none: every request of a resource method carries the four
    default fields of the library with their default values. *)
Theorem default_fields_kept url api_key c w :
  ∃ p, (perform (__init__ url api_key) c w).1 = w ++ [p]
       ∧ ci_getitem "User-Agent" (headers p) = Some default_user_agent
       ∧ ci_getitem "Accept-Encoding" (headers p) = Some DEFAULT_ACCEPT_ENCODING
       ∧ ci_getitem "Accept" (headers p) = Some "*/*"
       ∧ ci_getitem "Connection" (headers p) = Some "keep-alive".
Proof.
  destruct (perform_one_dispatch (__init__ url api_key) c w)
    as (m & e & kw & Hkw & Hlog).
  eexists. split; [exact Hlog|]. by apply outbound_default_fields.
Qed.

(** X7: a client without a credential (none, or the empty string) sends
    [Content-Type: application/json] exactly with the requests that have a
    JSON body, which are the POST requests; its GET requests carry no
    [Content-Type]. *)
Theorem content_type_without_credential url api_key c w :
  api_key = None ∨ api_key = Some "" →
  ∃ p, (perform (__init__ url api_key) c w).1 = w ++ [p]
       ∧ ci_getitem "Content-Type" (headers p)
         = match req_json (request p) with
           | Some _ => Some "application/json"
           | None => None
           end
       ∧ (is_Some (ci_getitem "Content-Type" (headers p))
          ↔ req_method (request p) = "POST").
Proof.
  intros Hkey.
  destruct c; (eexists; split; [apply request_one_dispatch|]);
    (split; [by apply outbound_content_type_no_key|]);
    rewrite outbound_content_type_no_key by done; simpl;
    (split; [intros [? ?]; by simplify_eq | try done; intros _; by eexists]).
Qed.

End HeaderFacts.

(** ** Normalization of the base URL *)

Section BaseUrlFacts.
Import requests PyStr PyStrFacts.
Context {lib : Library}.

Lemma rstrip_decompose c s : ∃ k, s = rstrip c s +:+ replicate k c.
Proof.
  induction s as [|a s [k IH]]; [by exists 0%nat|]. simpl.
  destruct (rstrip c s) as [|a' r] eqn:E.
  - destruct (Ascii.eqb a c) eqn:Eac.
    + apply Ascii.eqb_eq in Eac as ->. exists (S k).
      change (String c s = String c (replicate k c)). f_equal. exact IH.
    + exists k. change (String a s = String a (replicate k c)). f_equal. exact IH.
  - exists k. change (String a s = String a (String a' r +:+ replicate k c)).
    f_equal. exact IH.
Qed.

Lemma rstrip_id c s : last s ≠ Some c → rstrip c s = s.
Proof.
  induction s as [|a s IH]; [done|]. intros Hlast. simpl.
  destruct s as [|a' s].
  - simpl in *. destruct (Ascii.eqb a c) eqn:Eac; [|done].
    apply Ascii.eqb_eq in Eac. congruence.
  - rewrite IH by done. done.
Qed.

(** X8: the stored base URL is the given one without its trailing
    slashes, and nothing else is changed: the given URL is the stored one
    followed by slashes only; the stored one does not end in a slash;
    normalizing it again changes nothing; a URL with no trailing slash is
    stored as it is; and the stored URL is empty exactly when the given one
    is made of slashes only (or is empty). *)
Theorem base_url_normalization url api_key :
  let b := base_url (__init__ url api_key) in
  (∃ k, url = b +:+ replicate k slash)
  ∧ last b ≠ Some slash
  ∧ base_url (__init__ b api_key) = b
  ∧ (last url ≠ Some slash → b = url)
  ∧ (b = "" ↔ ∃ k, url = replicate k slash).
Proof.
  intros b. unfold b. rewrite !init_base_url. split_and!.
  - apply rstrip_decompose.
  - apply last_rstrip.
  - apply rstrip_idem.
  - apply rstrip_id.
  - split.
    + intros Hb. destruct (rstrip_decompose slash url) as [k Hk].
      exists k. by rewrite Hb in Hk.
    + intros [k ->]. apply rstrip_replicate.
Qed.

End BaseUrlFacts.

(** ** Query parameters of the audit log *)

Section AuditFacts.
Import requests.
Context {lib : Library}.


End AuditFacts.

(** ** The key-provisioning script, further *)

Section ScriptMore.
Import create_test_api_key.
Variable bcrypt_hashpw : string → string → string.

(** X10: a generated key is ["test-key-"] followed by the token and is 9
    characters longer than it; the token can be read back from the key, so
    different tokens give different keys, which all the same have the same
    8-character prefix. *)
Theorem generated_key_shape token1 token2 :
  String.length (generate_api_key token1) = (9 + String.length token1)%nat
  ∧ PyStr.take 9 (generate_api_key token1) = "test-key-"
  ∧ (generate_api_key token1 = generate_api_key token2 → token1 = token2)
  ∧ (token1 ≠ token2 →
     generate_api_key token1 ≠ generate_api_key token2
     ∧ PyStr.take 8 (generate_api_key token1)
       = PyStr.take 8 (generate_api_key token2)).
Proof.
  split_and!.
  - unfold generate_api_key. by rewrite PyStrFacts.length_append.
  - done.
  - intros [= Heq]. exact Heq.
  - intros Hne. split; [|done]. intros [= Heq]. apply Hne. exact Heq.
Qed.

Lemma hex_digit_is_lower_hex n : is_lower_hex (hashlib.hex_digit n) = true.
Proof.
  unfold hashlib.hex_digit.
  assert (0 ≤ Z.land n 15 < 16) as Hr.
  { change 15 with (Z.ones 4). rewrite Z.land_ones by lia.
    apply Z.mod_pos_bound. lia. }
  assert (Z.to_nat (Z.land n 15) < 16)%nat as Hlt by lia.
  destruct (Z.to_nat (Z.land n 15)) as [|[|[|[|[|[|[|[|[|[|[|[|[|[|[|[|k]]]]]]]]]]]]]]]];
    try reflexivity; lia.
Qed.

Lemma hex8_is_lower_hex w rest :
  string_forallb is_lower_hex rest = true →
  string_forallb is_lower_hex (hashlib.hex8 w rest) = true.
Proof.
  intros Hrest. unfold hashlib.hex8. cbn [string_forallb].
  by rewrite !hex_digit_is_lower_hex, Hrest.
Qed.

(** X11: what [hash_api_key] hands to bcrypt, the hexadecimal SHA-256
    digest, is for every key a string of 64 characters, each a digit or a
    letter from [a] to [f]. *)
Theorem hexdigest_is_lower_hex m :
  String.length (hashlib.sha256_hexdigest m) = 64%nat
  ∧ string_forallb is_lower_hex (hashlib.sha256_hexdigest m) = true.
Proof.
  split; [apply sha256_hexdigest_length|].
  unfold hashlib.sha256_hexdigest.
  destruct (hashlib.sha256 _) as [[[[[[[a b] c] d] e] f] g] h].
  by repeat apply hex8_is_lower_hex.
Qed.

Lemma main_applied token_hex salt now table :
  main bcrypt_hashpw token_hex salt true now table
  = (upsert now "test-key"
       (hash_api_key bcrypt_hashpw (generate_api_key token_hex) salt) table, 0).
Proof. done. Qed.

(** X12: a run whose statement is applied writes the row of the prefix
    [test-key] and no other: that row has the fixed name and rate limit, and
    the creation time of the row it replaces if there was one, else the
    current time; every other row is as before; the table grows by one row
    exactly when it had none for the prefix. *)
Theorem run_writes_one_row token_hex salt now table :
  let table' := (main bcrypt_hashpw token_hex salt true now table).1 in
  (∃ row, table' !! "test-key" = Some row
          ∧ name row = "Development Test Key"
          ∧ rate_limit row = 10000
          ∧ created_at row
            = match table !! "test-key" with
              | Some old => created_at old
              | None => now
              end)
  ∧ (∀ k, k ≠ "test-key" → table' !! k = table !! k)
  ∧ dom table' = {["test-key"]} ∪ dom table
  ∧ size table'
    = match table !! "test-key" with
      | Some _ => size table
      | None => S (size table)
      end.
Proof.
  intros table'. unfold table'. rewrite main_applied. simpl. unfold upsert.
  split_and!.
  - eexists. split; [apply lookup_insert_eq|]. done.
  - intros k Hk. by rewrite lookup_insert_ne.
  - apply dom_insert_L.
  - destruct (table !! "test-key") as [old|] eqn:Hold.
    + by rewrite map_size_insert, Hold.
    + by rewrite map_size_insert, Hold.
Qed.

(** X13: running the script twice leaves one row for its keys, that of
    the second key: the second run replaces the hash of the first, keeps the
    creation time, adds no row, and the table is the one that the second run
    alone would have produced at the time of the first. *)
Theorem rerun_replaces_key token1 salt1 now1 token2 salt2 now2 table :
  let table1 := (main bcrypt_hashpw token1 salt1 true now1 table).1 in
  let table2 := (main bcrypt_hashpw token2 salt2 true now2 table1).1 in
  (∃ row, table2 !! "test-key" = Some row
          ∧ key_hash row
            = hash_api_key bcrypt_hashpw (generate_api_key token2) salt2
          ∧ created_at row
            = match table !! "test-key" with
              | Some old => created_at old
              | None => now1
              end)
  ∧ (∀ k, k ≠ "test-key" → table2 !! k = table !! k)
  ∧ size table2 = size table1
  ∧ table2
    = (main bcrypt_hashpw token2 salt2 true
         (match table !! "test-key" with
          | Some old => created_at old
          | None => now1
          end) table).1.
Proof.
  intros table1 table2. unfold table2, table1. rewrite !main_applied. simpl.
  unfold upsert. rewrite !lookup_insert_eq. simpl. split_and!.
  - eexists. split; [reflexivity|]. done.
  - intros k Hk. by rewrite !lookup_insert_ne.
  - rewrite insert_insert_eq.
    destruct (table !! "test-key") as [old|] eqn:Hold.
    + by rewrite !map_size_insert, Hold.
    + by rewrite !map_size_insert, Hold.
  - rewrite insert_insert_eq. by destruct (table !! "test-key").
Qed.

(** X14: the exit status is 0 exactly when the statement was applied and
    1 exactly when [psql] failed, and then the table is unchanged. *)
Theorem main_exit_status token_hex salt psql_ok now table :
  ((main bcrypt_hashpw token_hex salt psql_ok now table).2 = 0 ↔ psql_ok = true)
  ∧ ((main bcrypt_hashpw token_hex salt psql_ok now table).2 = 1 ↔ psql_ok = false)
  ∧ (psql_ok = false →
     (main bcrypt_hashpw token_hex salt psql_ok now table).1 = table).
Proof.
  destruct psql_ok; simpl; split_and!; (split || intros ?); done.
Qed.

End ScriptMore.

(** ** The example script *)

Section UsageFacts.
Import requests basic_usage.
Context {lib : Library}.

Lemma bind_call_request {B} self method endpoint kw (k : value → Script B) w :
  basic_usage.bind (call (_request self method endpoint kw)) k w
  = match (_request self method endpoint kw w).2 with
    | inl e => (w ++ [outbound self method endpoint kw], inl (Raised e))
    | inr v => k v (w ++ [outbound self method endpoint kw])
    end.
Proof.
  unfold basic_usage.bind, call.
  pose proof (request_one_dispatch self method endpoint kw w) as Hlog.
  destruct (_request self method endpoint kw w) as [w' [e|v]]; simpl in *;
    by rewrite Hlog.
Qed.

Lemma bind_eval {A B} (r : error + A) (k : A → Script B) w :
  basic_usage.bind (eval r) k w
  = match r with inl e => (w, inl e) | inr a => k a w end.
Proof. unfold basic_usage.bind, eval. by destruct r. Qed.




(** X16: the example script ends at its first access when the health check
    fails or answers without a status: with the client's exception when the
    call raises, with [KeyError] when the answer is a mapping that has no
    ["status"] key, with [TypeError] when the answer is not a mapping; in
    each case after one request, none of the other calls being made. *)
Theorem usage_stops_at_health w :
  let first := outbound usage_client "GET" "/health" no_kwargs in
  (∀ e, (health_check usage_client w).2 = inl e →
        usage_main w = (w ++ [first], inl (Raised e)))
  ∧ (∀ d, (health_check usage_client w).2 = inr (VDict d) →
          d !! "status" = None →
          usage_main w = (w ++ [first], inl (KeyError "status")))
  ∧ (∀ v, (health_check usage_client w).2 = inr v →
          (∀ d, v ≠ VDict d) →
          usage_main w = (w ++ [first], inl TypeError)).
Proof.
  intros first. unfold usage_main, health_check. simpl.
  rewrite bind_call_request. fold first. split_and!.
  - by intros e ->.
  - intros d -> Hd. rewrite bind_eval. simpl. by rewrite Hd.
  - intros v -> Hv. rewrite bind_eval.
    destruct v; try done. by destruct (Hv d).
Qed.

End UsageFacts.

(** ** The further properties on concrete inputs *)

Section MoreScenarios.
Import requests.


(** X7 at a warehouse query of a client without a credential. *)
Lemma content_type_without_credential_witness :
  let lib := mock_library healthy_server in
  ∃ p, (perform (__init__ example_url None)
          (WarehouseQuery "Show me total sales by region" None) []).1 = [p]
       ∧ ci_getitem "Content-Type" (headers p) = Some "application/json"
       ∧ ci_getitem "Authorization" (headers p) = None.
Proof.
  intros lib.
  destruct (content_type_without_credential (lib := lib) example_url None
              (WarehouseQuery "Show me total sales by region" None) []
              (or_introl eq_refl)) as (p & Hlog & Htype & _).
  exists p. split; [exact Hlog|].
  simpl in Hlog. apply (inj (λ x, [x])) in Hlog. subst p.
  split; vm_compute; reflexivity.
Defined.

(** The SHA-256 above on the two shortest test messages of its standard:
    the digests are those that [hashlib] gives. *)
Lemma sha256_hexdigest_abc :
  hashlib.sha256_hexdigest "abc"
  = "ba7816bf8f01cfea414140de5dae2223b00361a396177a9cb410ff61f20015ad".
Proof. vm_compute. reflexivity. Qed.

Lemma sha256_hexdigest_empty :
  hashlib.sha256_hexdigest ""
  = "e3b0c44298fc1c149afbf4c8996fb92427ae41e4649b934ca495991b7852b855".
Proof. vm_compute. reflexivity. Qed.

(** The example script against a server that answers as it expects: it
    runs to its end, having sent its six requests. *)
Lemma usage_main_completes :
  let lib := mock_library usage_server in
  usage_main [] = (usage_requests, inr tt).
Proof. vm_compute. reflexivity. Qed.

End MoreScenarios.
